(** * aws-utils: provisioning and tear-down of a Redshift cluster

    A shallow embedding of [create_cluster.py] and [delete_cluster.py].

    Both scripts are straight-line Python over three kinds of effect:
    calls on boto3 client objects, lines printed to standard output and
    exceptions.  The embedding keeps the three apart:

    - Python values are the dynamic type [pyval];
    - a computation is a function [World -> result A * World], where the
      world records, in order, every call made on a client and every line
      printed;
    - what AWS answers to a call is not decided by this code: it is an
      oracle, [Provider], which is given the calls made so far and the call
      at hand, and either returns a response or raises. *)

From Stdlib Require Import ZArith String Ascii List Lia Bool.
From stdpp Require Import base option list strings pretty gmap.

Set Warnings "-register-all".

Local Open Scope string_scope.
Local Open Scope Z_scope.

(** ** Python values and exceptions *)

(** The values the two scripts handle: strings from the configuration,
    the list of service names, keyword arguments, and the JSON-like
    responses of boto3 (dictionaries with string keys, kept as association
    lists in insertion order). *)
Inductive pyval : Type :=
| PNone
| PBool (b : bool)
| PInt (z : Z)
| PStr (s : string)
| PList (l : list pyval)
| PDict (d : list (string * pyval)).

(** The exceptions that can travel through the scripts.  [Interrupt]
    stands for the classes that derive from [BaseException] but not from
    [Exception] (KeyboardInterrupt, SystemExit): an [except Exception]
    clause does not catch them. *)
Inductive exn : Type :=
| TypeErrorMissing (fname : string) (missing : list string)
| TypeErrorTooMany (fname : string) (takes given : nat)
| TypeError (msg : string)
| KeyError (key : pyval)
| IndexError (msg : string)
| ValueError (msg : string)
| ClientError (code msg : string)
| OtherException (cls msg : string)
| Interrupt (cls : string).

Definition is_Exception (e : exn) : bool :=
  match e with
  | Interrupt _ => false
  | _ => true
  end.

Inductive result (A : Type) : Type :=
| Ok (a : A)
| Raise (e : exn).
Arguments Ok {A} a.
Arguments Raise {A} e.

(** ** Client handles, calls and the world *)

(** What [boto3.client(name, region_name=.., aws_access_key_id=..,
    aws_secret_access_key=..)] binds into the handle it returns.  The
    SDK's own checks on the service name are outside this repository; the
    handle is modelled as the record of the four arguments. *)
Record Client : Type := mkClient {
  service_name : pyval;
  region_name : pyval;
  aws_access_key_id : pyval;
  aws_secret_access_key : pyval
}.

Definition boto3_client (name region key secret : pyval) : Client :=
  {| service_name := name;
     region_name := region;
     aws_access_key_id := key;
     aws_secret_access_key := secret |}.

(** One method call on a client, with its keyword arguments in the
    order they are written. *)
Record Call : Type := mkCall {
  target : Client;
  operation : string;
  kwargs : list (string * pyval)
}.

(** What [print] was given: a string, an exception ([print(e)]) or any
    other value ([print(myClusterProps)]). *)
Inductive printed : Type :=
| Text (s : string)
| ExnText (e : exn)
| Repr (v : pyval).

Record World : Type := mkWorld {
  calls : list Call;
  stdout : list printed
}.

Definition W0 : World := {| calls := []; stdout := [] |}.

(** The provider's answer to a call, given the calls already made. *)
Definition Provider : Type := list Call -> Call -> result pyval.

(** ** The effect monad *)

Definition M (A : Type) : Type := World -> result A * World.

Definition ret {A} (a : A) : M A := fun w => (Ok a, w).

Definition raise {A} (e : exn) : M A := fun w => (Raise e, w).

Definition bind {A B} (m : M A) (k : A -> M B) : M B :=
  fun w =>
    match m w with
    | (Ok a, w') => k a w'
    | (Raise e, w') => (Raise e, w')
    end.

Definition lift {A} (r : result A) : M A := fun w => (r, w).

Notation "'do' x <- m ; k" := (bind m (fun x => k))
  (at level 10, x name, m at level 100, k at level 200,
   format "'[v' 'do'  x  <-  m ; '/' k ']'").
Notation "'do' ' p <- m ; k" := (bind m (fun x => match x with p => k end))
  (at level 10, p pattern, m at level 100, k at level 200,
   format "'[v' 'do'  ' p  <-  m ; '/' k ']'").
Notation "'exec' m ; k" := (bind m (fun _ => k))
  (at level 10, m at level 100, k at level 200,
   format "'[v' 'exec'  m ; '/' k ']'").

(** [try: body  except Exception as e: handler e]. *)
Definition try_except_Exception (body : M unit) (handler : exn -> M unit) : M unit :=
  fun w =>
    match body w with
    | (Ok tt, w') => (Ok tt, w')
    | (Raise e, w') => if is_Exception e then handler e w' else (Raise e, w')
    end.

Definition print (p : printed) : M unit :=
  fun w => (Ok tt, {| calls := calls w; stdout := stdout w ++ [p] |}).

(** A method call on a client: the call is recorded, then the provider
    answers it. *)
Definition request (provider : Provider) (c : Call) : M pyval :=
  fun w =>
    (provider (calls w) c,
     {| calls := calls w ++ [c]; stdout := stdout w |}).

(** ** Built-ins of the language the scripts rely on *)

Fixpoint assoc (k : string) (d : list (string * pyval)) : option pyval :=
  match d with
  | [] => None
  | (k', v) :: d' => if String.eqb k k' then Some v else assoc k d'
  end.

Definition index_list {A} (l : list A) (i : Z) : option A :=
  let n := Z.of_nat (length l) in
  if (0 <=? i) && (i <? n) then nth_error l (Z.to_nat i)
  else if (i <? 0) && (0 <=? n + i) then nth_error l (Z.to_nat (n + i))
  else None.

(** [v[k]]. *)
Definition py_getitem (v k : pyval) : result pyval :=
  match v, k with
  | PDict d, PStr s =>
      match assoc s d with
      | Some x => Ok x
      | None => Raise (KeyError k)
      end
  | PDict _, (PList _ | PDict _) => Raise (TypeError "unhashable type")
  | PDict _, _ => Raise (KeyError k)
  | PList l, PInt i =>
      match index_list l i with
      | Some x => Ok x
      | None => Raise (IndexError "list index out of range")
      end
  | PList _, _ => Raise (TypeError "list indices must be integers or slices")
  | PStr s, PInt i =>
      match index_list (list_ascii_of_string s) i with
      | Some c => Ok (PStr (String c EmptyString))
      | None => Raise (IndexError "string index out of range")
      end
  | PStr _, _ => Raise (TypeError "string indices must be integers")
  | _, _ => Raise (TypeError "object is not subscriptable")
  end.

(** The elements a [for] loop draws from a value. *)
Definition py_iter (v : pyval) : result (list pyval) :=
  match v with
  | PList l => Ok l
  | PDict d => Ok (map (fun kv => PStr (fst kv)) d)
  | PStr s => Ok (map (fun c => PStr (String c EmptyString)) (list_ascii_of_string s))
  | _ => Raise (TypeError "object is not iterable")
  end.

(** [a, b = v] for a list [v]. *)
Definition unpack2 {A} (l : list A) : result (A * A) :=
  match l with
  | [a; b] => Ok (a, b)
  | [] | [_] => Raise (ValueError "not enough values to unpack (expected 2)")
  | _ => Raise (ValueError "too many values to unpack (expected 2)")
  end.

(** *** [int(s)] for a string

    Base ten, over ASCII: surrounding whitespace is dropped, one sign is
    allowed, and the digits may be grouped by single underscores. *)

Definition is_space (c : ascii) : bool :=
  let n := nat_of_ascii c in
  ((9 <=? n) && (n <=? 13) || (28 <=? n) && (n <=? 32))%nat.

Definition digit_of (c : ascii) : option Z :=
  let n := nat_of_ascii c in
  if ((48 <=? n) && (n <=? 57))%nat then Some (Z.of_nat n - 48) else None.

Fixpoint lstrip (s : string) : string :=
  match s with
  | String c s' => if is_space c then lstrip s' else s
  | EmptyString => EmptyString
  end.

Fixpoint rstrip (s : string) : string :=
  match s with
  | String c s' =>
      match rstrip s' with
      | EmptyString => if is_space c then EmptyString else String c EmptyString
      | r => String c r
      end
  | EmptyString => EmptyString
  end.

(** Decimal digits, single underscores allowed between two digits.
    [after_digit] tells whether the previous character was a digit. *)
Fixpoint digits_value (acc : Z) (after_digit : bool) (s : string) : option Z :=
  match s with
  | EmptyString => if after_digit then Some acc else None
  | String c s' =>
      match digit_of c with
      | Some d => digits_value (10 * acc + d) true s'
      | None =>
          if Ascii.eqb c "_"%char && after_digit
          then digits_value acc false s'
          else None
      end
  end.

Definition py_int (s : string) : result Z :=
  let t := rstrip (lstrip s) in
  let parsed :=
    match t with
    | String "+"%char r => digits_value 0 false r
    | String "-"%char r => Z.opp <$> digits_value 0 false r
    | _ => digits_value 0 false t
    end in
  match parsed with
  | Some n => Ok n
  | None => Raise (ValueError "invalid literal for int() with base 10")
  end.

(** [int(v)] for any value: strings are parsed, integers and booleans
    converted, anything else is a [TypeError]. *)
Definition py_int_of (v : pyval) : result Z :=
  match v with
  | PStr s => py_int s
  | PInt z => Ok z
  | PBool b => Ok (if b then 1 else 0)
  | _ => Raise (TypeError "int() argument must be a string or a real number")
  end.

(** *** [json.dumps] with its default settings *)

Definition dquote : string := String (ascii_of_nat 34) EmptyString.
Definition backslash : string := String (ascii_of_nat 92) EmptyString.

Definition hex_digit (n : nat) : ascii :=
  if (n <? 10)%nat then ascii_of_nat (48 + n) else ascii_of_nat (87 + n).

Definition json_escape (c : ascii) : string :=
  let n := nat_of_ascii c in
  if (n =? 34)%nat then backslash ++ dquote
  else if (n =? 92)%nat then backslash ++ backslash
  else if (n =? 10)%nat then backslash ++ "n"
  else if (n =? 13)%nat then backslash ++ "r"
  else if (n =? 9)%nat then backslash ++ "t"
  else if (n =? 8)%nat then backslash ++ "b"
  else if (n =? 12)%nat then backslash ++ "f"
  else if ((n <? 32) || (127 <? n))%nat
  then backslash ++ "u00"
       ++ String (hex_digit (n / 16)) (String (hex_digit (n mod 16)) EmptyString)
  else String c EmptyString.

Fixpoint json_escape_all (s : string) : string :=
  match s with
  | EmptyString => EmptyString
  | String c s' => json_escape c ++ json_escape_all s'
  end.

Definition json_string (s : string) : string :=
  dquote ++ json_escape_all s ++ dquote.

Fixpoint json_dumps (v : pyval) : string :=
  match v with
  | PNone => "null"
  | PBool true => "true"
  | PBool false => "false"
  | PInt z => pretty z
  | PStr s => json_string s
  | PList l => "[" ++ String.concat ", " (map json_dumps l) ++ "]"
  | PDict d =>
      "{" ++ String.concat ", "
               (map (fun kv => let '(k, x) := kv in
                               json_string k ++ ": " ++ json_dumps x) d)
          ++ "}"
  end.

(** ** The configuration *)

(** [dwh.cfg] once parsed: sections of key-value pairs, every value a
    string.  Reading the file itself ([open], [read_file]) is outside the
    model; the entry points take the parsed configuration. *)
Abbreviation Config := (gmap string (gmap string string)).

(** [config[section][key]]: each of the two subscripts can raise. *)
Definition config_get (config : Config) (section key : string) : result string :=
  match config !! section with
  | None => Raise (KeyError (PStr section))
  | Some sec =>
      match sec !! key with
      | None => Raise (KeyError (PStr key))
      | Some v => Ok v
      end
  end.

(** The calls a computation adds to the world it starts from. *)
Definition issued {A} (m : M A) (w : World) : list Call :=
  drop (length (calls w)) (calls (snd (m w))).

(** What a computation prints. *)
Definition output {A} (m : M A) (w : World) : list printed :=
  drop (length (stdout w)) (stdout (snd (m w))).

Definition s3_read_only : string := "arn:aws:iam::aws:policy/AmazonS3ReadOnlyAccess".

(** ** create_cluster.py *)

Module CreateCluster.

(** [create_aws_clients(clients, region, key, secret)]: a lone string is
    wrapped into a one-element list, then one client is built per element,
    in order. *)
Definition create_aws_clients (clients region key secret : pyval)
  : result (list Client) :=
  let clients :=
    match clients with
    | PStr _ => PList [clients]
    | _ => clients
    end in
  match py_iter clients with
  | Ok names => Ok (map (fun client => boto3_client client region key secret) names)
  | Raise e => Raise e
  end.

Definition create_aws_clients_params : list string :=
  ["clients"; "region"; "key"; "secret"].

(** A call of [create_aws_clients] with positional arguments only: the
    interpreter binds them to the four parameters, none of which has a
    default, before the body runs. *)
Definition call_create_aws_clients (args : list pyval) : result (list Client) :=
  match args with
  | [clients; region; key; secret] => create_aws_clients clients region key secret
  | _ =>
      if (length args <? 4)%nat
      then Raise (TypeErrorMissing "create_aws_clients"
                    (drop (length args) create_aws_clients_params))
      else Raise (TypeErrorTooMany "create_aws_clients" 4 (length args))
  end.

Definition trust_policy : pyval :=
  PDict [("Statement",
          PList [PDict [("Action", PStr "sts:AssumeRole");
                        ("Effect", PStr "Allow");
                        ("Principal",
                         PDict [("Service", PStr "redshift.amazonaws.com")])]]);
         ("Version", PStr "2012-10-17")].

Definition create_role_call (iam_client : Client) (iam_role_name : pyval) : Call :=
  {| target := iam_client;
     operation := "create_role";
     kwargs :=
       [("Path", PStr "/");
        ("RoleName", iam_role_name);
        ("Description",
         PStr "Allows Redshift clusters to call AWS services on your behalf.");
        ("AssumeRolePolicyDocument", PStr (json_dumps trust_policy))] |}.

Definition attach_role_policy_call (iam_client : Client) (iam_role_name : pyval) : Call :=
  {| target := iam_client;
     operation := "attach_role_policy";
     kwargs := [("RoleName", iam_role_name); ("PolicyArn", PStr s3_read_only)] |}.

Definition get_role_call (iam_client : Client) (iam_role_name : pyval) : Call :=
  {| target := iam_client;
     operation := "get_role";
     kwargs := [("RoleName", iam_role_name)] |}.

Definition create_cluster_call (redshift_client : Client)
    (cluster_type node_type : pyval) (number_of_nodes : Z)
    (db cluster_id db_user db_password role_arn : pyval) : Call :=
  {| target := redshift_client;
     operation := "create_cluster";
     kwargs :=
       [("ClusterType", cluster_type);
        ("NodeType", node_type);
        ("NumberOfNodes", PInt number_of_nodes);
        ("DBName", db);
        ("ClusterIdentifier", cluster_id);
        ("MasterUsername", db_user);
        ("MasterUserPassword", db_password);
        ("IamRoles", PList [role_arn])] |}.

Definition describe_clusters_call (redshift_client : Client) (cluster_id : pyval) : Call :=
  {| target := redshift_client;
     operation := "describe_clusters";
     kwargs := [("ClusterIdentifier", cluster_id)] |}.

Section WithProvider.

Variable provider : Provider.

(** [create_iam_role], step 1.1: the [try] around [create_role]. *)
Definition create_iam_role_try (iam_client : Client) (iam_role_name : pyval) : M unit :=
  try_except_Exception
    (exec print (Text "1.1 Creating a new IAM Role");
     do dwhRole <- request provider (create_role_call iam_client iam_role_name);
     ret tt)
    (fun e => print (ExnText e)).

(** [create_iam_role], steps 1.2 and 1.3: what follows the [try]. *)
Definition create_iam_role_rest (iam_client : Client) (iam_role_name : pyval) : M pyval :=
  exec print (Text "1.2 Attaching Policy");
  do attached <- request provider (attach_role_policy_call iam_client iam_role_name);
  do metadata <- lift (py_getitem attached (PStr "ResponseMetadata"));
  do status <- lift (py_getitem metadata (PStr "HTTPStatusCode"));
  exec print (Text "1.3 Get the IAM role ARN");
  do got <- request provider (get_role_call iam_client iam_role_name);
  do role <- lift (py_getitem got (PStr "Role"));
  do role_arn <- lift (py_getitem role (PStr "Arn"));
  exec print (Text "Successful IAM role creation");
  ret role_arn.

Definition create_iam_role (iam_client : Client) (iam_role_name : pyval) : M pyval :=
  exec create_iam_role_try iam_client iam_role_name;
  create_iam_role_rest iam_client iam_role_name.

Definition create_redshift_cluster (redshift_client : Client)
    (cluster_type node_type num_nodes db cluster_id db_user db_password role_arn : pyval)
  : M unit :=
  try_except_Exception
    (do number_of_nodes <- lift (py_int_of num_nodes);
     do response <- request provider
                      (create_cluster_call redshift_client cluster_type node_type
                         number_of_nodes db cluster_id db_user db_password role_arn);
     exec print (Text "Successful Redshift Cluster Creation");
     ret tt)
    (fun e => print (ExnText e)).

Definition display_cluster_props (redshift_client : Client) (cluster_id : pyval) : M unit :=
  do described <- request provider (describe_clusters_call redshift_client cluster_id);
  do clusters <- lift (py_getitem described (PStr "Clusters"));
  do myClusterProps <- lift (py_getitem clusters (PInt 0));
  print (Repr myClusterProps).

Definition main (config : Config) : M unit :=
  do key <- lift (config_get config "AWS" "KEY");
  do secret <- lift (config_get config "AWS" "SECRET");
  do clients <- lift (call_create_aws_clients
                        [PList [PStr "iam"; PStr "redshift"];
                         PStr "us-west-2"; PStr key; PStr secret]);
  do ' (iam, redshift) <- lift (unpack2 clients);
  do role_name <- lift (config_get config "DWH" "DWH_IAM_ROLE_NAME");
  do role_arn <- create_iam_role iam (PStr role_name);
  do cluster_type <- lift (config_get config "DWH" "DWH_CLUSTER_TYPE");
  do node_type <- lift (config_get config "DWH" "DWH_NODE_TYPE");
  do num_nodes <- lift (config_get config "DWH" "DWH_NUM_NODES");
  do db <- lift (config_get config "DWH" "DWH_DB");
  do cluster_id <- lift (config_get config "DWH" "DWH_CLUSTER_IDENTIFIER");
  do db_user <- lift (config_get config "DWH" "DWH_DB_USER");
  do db_password <- lift (config_get config "DWH" "DWH_DB_PASSWORD");
  exec create_redshift_cluster redshift (PStr cluster_type) (PStr node_type)
         (PStr num_nodes) (PStr db) (PStr cluster_id) (PStr db_user)
         (PStr db_password) role_arn;
  do cluster_id' <- lift (config_get config "DWH" "DWH_CLUSTER_IDENTIFIER");
  display_cluster_props redshift (PStr cluster_id').

End WithProvider.

End CreateCluster.

(** ** delete_cluster.py *)

Module DeleteCluster.

Definition delete_cluster_call (redshift : Client) (cluster_id : pyval) : Call :=
  {| target := redshift;
     operation := "delete_cluster";
     kwargs := [("ClusterIdentifier", cluster_id);
                ("SkipFinalClusterSnapshot", PBool true)] |}.

Definition detach_role_policy_call (iam : Client) (role_name : pyval) : Call :=
  {| target := iam;
     operation := "detach_role_policy";
     kwargs := [("RoleName", role_name); ("PolicyArn", PStr s3_read_only)] |}.

Definition delete_role_call (iam : Client) (role_name : pyval) : Call :=
  {| target := iam;
     operation := "delete_role";
     kwargs := [("RoleName", role_name)] |}.

Section WithProvider.

Variable provider : Provider.

(** [main] from the first request on, once [iam] and [redshift] are
    bound. *)
Definition main_requests (iam redshift : Client) (config : Config) : M unit :=
  do cluster_id <- lift (config_get config "DWH" "DWH_CLUSTER_IDENTIFIER");
  do deleted <- request provider (delete_cluster_call redshift (PStr cluster_id));
  do role_name <- lift (config_get config "DWH" "DWH_IAM_ROLE_NAME");
  do detached <- request provider (detach_role_policy_call iam (PStr role_name));
  do role_name' <- lift (config_get config "DWH" "DWH_IAM_ROLE_NAME");
  do removed <- request provider (delete_role_call iam (PStr role_name'));
  print (Text "Cluster and IAM role deleted").

(** [main]: the call of [create_aws_clients] is written with three
    positional arguments. *)
Definition main (config : Config) : M unit :=
  do key <- lift (config_get config "AWS" "KEY");
  do secret <- lift (config_get config "AWS" "SECRET");
  do clients <- lift (CreateCluster.call_create_aws_clients
                        [PStr "us-west-2"; PStr key; PStr secret]);
  do ' (iam, redshift) <- lift (unpack2 clients);
  main_requests iam redshift config.

End WithProvider.

End DeleteCluster.

(** ** Sample configurations and providers *)

Definition sample_config : Config :=
  {[ "AWS" := {[ "KEY" := "AKIAEXAMPLE"; "SECRET" := "s3cr3t" ]};
     "DWH" := {[ "DWH_IAM_ROLE_NAME" := "dwhRole";
                 "DWH_CLUSTER_TYPE" := "multi-node";
                 "DWH_NODE_TYPE" := "dc2.large";
                 "DWH_NUM_NODES" := "4";
                 "DWH_DB" := "dwh";
                 "DWH_CLUSTER_IDENTIFIER" := "dwhCluster";
                 "DWH_DB_USER" := "dwhuser";
                 "DWH_DB_PASSWORD" := "Passw0rd" ]} ]}.

(** The same, with a region entry that no line of the scripts reads. *)
Definition sample_config_eu : Config :=
  <[ "AWS" := {[ "KEY" := "AKIAEXAMPLE"; "SECRET" := "s3cr3t";
                 "REGION" := "eu-west-1" ]} ]> sample_config.

Definition sample_arn : pyval := PStr "arn:aws:iam::123456789012:role/dwhRole".

(** A provider that accepts every call and answers with the fields the
    scripts read. *)
Definition provider_ok : Provider :=
  fun _ c =>
    Ok (PDict [("ResponseMetadata", PDict [("HTTPStatusCode", PInt 200)]);
               ("Role", PDict [("Arn", sample_arn)]);
               ("Clusters", PList [PDict [("ClusterStatus", PStr "creating")]])]).

Definition already_exists : exn :=
  ClientError "EntityAlreadyExists" "Role with name dwhRole already exists.".

Definition access_denied : exn :=
  ClientError "AccessDenied" "User is not authorized to perform this action.".

(** A provider that refuses the call of one operation and accepts the
    others. *)
Definition provider_failing (op : string) (e : exn) : Provider :=
  fun history c =>
    if String.eqb (operation c) op then Raise e else provider_ok history c.

Definition sample_iam : Client :=
  boto3_client (PStr "iam") (PStr "us-west-2") (PStr "AKIAEXAMPLE") (PStr "s3cr3t").

Definition sample_redshift : Client :=
  boto3_client (PStr "redshift") (PStr "us-west-2") (PStr "AKIAEXAMPLE") (PStr "s3cr3t").

(** ** Vocabulary of the statements *)

(** The configuration provides every field the scripts read. *)
Definition required_keys : list (string * string) :=
  [("AWS", "KEY"); ("AWS", "SECRET");
   ("DWH", "DWH_IAM_ROLE_NAME"); ("DWH", "DWH_CLUSTER_TYPE");
   ("DWH", "DWH_NODE_TYPE"); ("DWH", "DWH_NUM_NODES"); ("DWH", "DWH_DB");
   ("DWH", "DWH_CLUSTER_IDENTIFIER"); ("DWH", "DWH_DB_USER");
   ("DWH", "DWH_DB_PASSWORD")].

Definition provides (config : Config) (field : string * string) : bool :=
  match config_get config (fst field) (snd field) with
  | Ok _ => true
  | Raise _ => false
  end.

Definition valid_config (config : Config) : bool :=
  forallb (provides config) required_keys.

(** The two handles [CreateCluster.main] works with. *)
Definition iam_handle (key secret : string) : Client :=
  boto3_client (PStr "iam") (PStr "us-west-2") (PStr key) (PStr secret).

Definition redshift_handle (key secret : string) : Client :=
  boto3_client (PStr "redshift") (PStr "us-west-2") (PStr key) (PStr secret).

(** The world after a refused [create_role]: the call was made, and the
    exception was printed after the step's banner. *)
Definition after_refusal (iam : Client) (name : pyval) (w : World) (e : exn) : World :=
  {| calls := (calls w ++ [CreateCluster.create_role_call iam name])%list;
     stdout := (stdout w ++ [Text "1.1 Creating a new IAM Role"; ExnText e])%list |}.

(** The three calls of [create_iam_role], in the order of its text. *)
Definition role_calls (iam : Client) (name : pyval) : list Call :=
  [CreateCluster.create_role_call iam name;
   CreateCluster.attach_role_policy_call iam name;
   CreateCluster.get_role_call iam name].

(** The calls [CreateCluster.main] can make once the role's ARN is known:
    the cluster creation, when the node count converts to an integer, and
    the description of the cluster. *)
Inductive cluster_calls (config : Config) (redshift : Client) (arn : pyval)
  : list Call -> Prop :=
| cluster_not_requested cid :
    config_get config "DWH" "DWH_CLUSTER_IDENTIFIER" = Ok cid ->
    cluster_calls config redshift arn
      [CreateCluster.describe_clusters_call redshift (PStr cid)]
| cluster_requested ct nt nn n db cid user pw tail :
    config_get config "DWH" "DWH_CLUSTER_TYPE" = Ok ct ->
    config_get config "DWH" "DWH_NODE_TYPE" = Ok nt ->
    config_get config "DWH" "DWH_NUM_NODES" = Ok nn ->
    py_int nn = Ok n ->
    config_get config "DWH" "DWH_DB" = Ok db ->
    config_get config "DWH" "DWH_CLUSTER_IDENTIFIER" = Ok cid ->
    config_get config "DWH" "DWH_DB_USER" = Ok user ->
    config_get config "DWH" "DWH_DB_PASSWORD" = Ok pw ->
    tail = [] \/ tail = [CreateCluster.describe_clusters_call redshift (PStr cid)] ->
    cluster_calls config redshift arn
      (CreateCluster.create_cluster_call redshift (PStr ct) (PStr nt) n
         (PStr db) (PStr cid) (PStr user) (PStr pw) arn :: tail).

(** The sequences of calls [CreateCluster.main] can make, from a world with
    the given history: none when a credential or the role name is missing;
    otherwise a non-empty prefix of the role's three calls; and, past these,
    the cluster's calls with the ARN that [get_role] answered. *)
Inductive provisioner_trace (provider : Provider) (config : Config)
    (history : list Call) : list Call -> Prop :=
| trace_nothing e :
    config_get config "AWS" "KEY" = Raise e
    \/ config_get config "AWS" "SECRET" = Raise e
    \/ config_get config "DWH" "DWH_IAM_ROLE_NAME" = Raise e ->
    provisioner_trace provider config history []
| trace_role key secret role n :
    config_get config "AWS" "KEY" = Ok key ->
    config_get config "AWS" "SECRET" = Ok secret ->
    config_get config "DWH" "DWH_IAM_ROLE_NAME" = Ok role ->
    provisioner_trace provider config history
      (take (S n) (role_calls (iam_handle key secret) (PStr role)))
| trace_cluster key secret role got described arn tail :
    config_get config "AWS" "KEY" = Ok key ->
    config_get config "AWS" "SECRET" = Ok secret ->
    config_get config "DWH" "DWH_IAM_ROLE_NAME" = Ok role ->
    provider
      (history ++ [CreateCluster.create_role_call (iam_handle key secret) (PStr role);
                   CreateCluster.attach_role_policy_call (iam_handle key secret) (PStr role)])%list
      (CreateCluster.get_role_call (iam_handle key secret) (PStr role)) = Ok got ->
    py_getitem got (PStr "Role") = Ok described ->
    py_getitem described (PStr "Arn") = Ok arn ->
    cluster_calls config (redshift_handle key secret) arn tail ->
    provisioner_trace provider config history
      (role_calls (iam_handle key secret) (PStr role) ++ tail)%list.

(** [a] is requested before [b] in a sequence of calls. *)
Definition before (tr : list Call) (a b : Call) : Prop :=
  exists i j : nat, (i < j)%nat /\ tr !! i = Some a /\ tr !! j = Some b.

(** The three calls of [DeleteCluster.main], in the order of its text. *)
Definition decommission_calls (iam redshift : Client) (cid role : pyval) : list Call :=
  [DeleteCluster.delete_cluster_call redshift cid;
   DeleteCluster.detach_role_policy_call iam role;
   DeleteCluster.delete_role_call iam role].

(** The sequences of calls [DeleteCluster.main_requests] can make: none
    when the cluster identifier is missing, the cluster deletion alone when
    it fails or the role name is missing, and otherwise the first two or
    all three calls. *)
Inductive decommission_trace (config : Config) (iam redshift : Client)
  : list Call -> Prop :=
| dtrace_nothing e :
    config_get config "DWH" "DWH_CLUSTER_IDENTIFIER" = Raise e ->
    decommission_trace config iam redshift []
| dtrace_cluster cid :
    config_get config "DWH" "DWH_CLUSTER_IDENTIFIER" = Ok cid ->
    decommission_trace config iam redshift
      [DeleteCluster.delete_cluster_call redshift (PStr cid)]
| dtrace_role cid role n :
    config_get config "DWH" "DWH_CLUSTER_IDENTIFIER" = Ok cid ->
    config_get config "DWH" "DWH_IAM_ROLE_NAME" = Ok role ->
    decommission_trace config iam redshift
      (take (S (S n)) (decommission_calls iam redshift (PStr cid) (PStr role))).

(** The exception Python raises for the call written in
    [DeleteCluster.main]. *)
Definition missing_secret : exn :=
  TypeErrorMissing "create_aws_clients" ["secret"].

(** ** Further vocabulary and samples *)


(** The configuration provides the ten fields, with these values. *)
Definition config_fields (config : Config)
    (key secret role ct nt nodes db cid user pw : string) : Prop :=
  config_get config "AWS" "KEY" = Ok key
  /\ config_get config "AWS" "SECRET" = Ok secret
  /\ config_get config "DWH" "DWH_IAM_ROLE_NAME" = Ok role
  /\ config_get config "DWH" "DWH_CLUSTER_TYPE" = Ok ct
  /\ config_get config "DWH" "DWH_NODE_TYPE" = Ok nt
  /\ config_get config "DWH" "DWH_NUM_NODES" = Ok nodes
  /\ config_get config "DWH" "DWH_DB" = Ok db
  /\ config_get config "DWH" "DWH_CLUSTER_IDENTIFIER" = Ok cid
  /\ config_get config "DWH" "DWH_DB_USER" = Ok user
  /\ config_get config "DWH" "DWH_DB_PASSWORD" = Ok pw.

(** A provider that answers the calls of one operation with a given value
    and accepts the others. *)
Definition provider_answering (op : string) (v : pyval) : Provider :=
  fun history c =>
    if String.eqb (operation c) op then Ok v else provider_ok history c.



Definition sample_creation (n : Z) : Call :=
  CreateCluster.create_cluster_call sample_redshift (PStr "multi-node")
    (PStr "dc2.large") n (PStr "dwh") (PStr "dwhCluster") (PStr "dwhuser")
    (PStr "Passw0rd") sample_arn.

(** The world [create_iam_role] leaves when every call is accepted. *)
Definition sample_after_role : World :=
  {| calls := role_calls sample_iam (PStr "dwhRole");
     stdout := [Text "1.1 Creating a new IAM Role"; Text "1.2 Attaching Policy";
                Text "1.3 Get the IAM role ARN";
                Text "Successful IAM role creation"] |}.

(** * Properties *)

Import CreateCluster.

Local Open Scope list_scope.

(** ** Running a computation: helper lemmas and tactics *)

Lemma issued_app {A} (m : M A) (w : World) (tr : list Call) :
  calls (snd (m w)) = calls w ++ tr -> issued m w = tr.
Proof.
  intros E. unfold issued. rewrite E. apply drop_app_length.
Qed.

Lemma output_app {A} (m : M A) (w : World) (out : list printed) :
  stdout (snd (m w)) = stdout w ++ out -> output m w = out.
Proof.
  intros E. unfold output. rewrite E. apply drop_app_length.
Qed.

(** Unfold the monad down to matches on what the provider and the
    built-ins return. *)
Ltac unfold_run :=
  unfold bind, lift, ret, raise, print, request, try_except_Exception;
  cbn [fst snd calls stdout target operation kwargs].

(** Bring a world's lists to the form [start ++ added]. *)
Ltac flatten_world :=
  cbn [fst snd calls stdout target operation kwargs];
  rewrite <- ?app_assoc; cbn [app].

Lemma main_handles (key secret : string) :
  call_create_aws_clients
    [PList [PStr "iam"; PStr "redshift"]; PStr "us-west-2"; PStr key; PStr secret]
  = Ok [iam_handle key secret; redshift_handle key secret].
Proof. reflexivity. Qed.

(** One step of a run: case analysis on the innermost answer the goal
    still waits for (a lookup, a conversion, the provider). *)
Ltac run_step :=
  match goal with
  | |- context [match ?x with _ => _ end] =>
      lazymatch x with
      | context [match _ with _ => _ end] => fail
      | _ => destruct x eqn:?
      end;
      rewrite ?main_handles;
      cbn beta iota zeta delta [fst snd calls stdout unpack2]
  end.

Ltac run := unfold_run; repeat run_step; flatten_world;
            rewrite <- ?app_assoc in *; cbn [app] in *.

(** ** The client factory *)

Lemma create_aws_clients_list (names : list pyval) (region key secret : pyval) :
  create_aws_clients (PList names) region key secret
  = Ok (map (fun name => boto3_client name region key secret) names).
Proof. reflexivity. Qed.

(** C4. Given ["iam", "redshift"], a region and credentials, the factory
    returns exactly two handles, the first bound to iam and the second to
    redshift, both bound to the given region; and for any list of service
    names it returns one handle per name, in the order of the names, each
    bound to its name, the region and the credentials. *)
Theorem create_aws_clients_one_handle_per_name
    (names : list string) (region key secret : pyval) :
  create_aws_clients (PList [PStr "iam"; PStr "redshift"]) region key secret
  = Ok [ {| service_name := PStr "iam"; region_name := region;
            aws_access_key_id := key; aws_secret_access_key := secret |};
         {| service_name := PStr "redshift"; region_name := region;
            aws_access_key_id := key; aws_secret_access_key := secret |} ]
  /\ exists handles,
       create_aws_clients (PList (map PStr names)) region key secret = Ok handles
       /\ length handles = length names
       /\ forall (i : nat) (name : string),
            names !! i = Some name ->
            exists h, handles !! i = Some h
                      /\ service_name h = PStr name
                      /\ region_name h = region
                      /\ aws_access_key_id h = key
                      /\ aws_secret_access_key h = secret.
Proof.
  split; [reflexivity |].
  rewrite create_aws_clients_list.
  eexists; split; [reflexivity |]. split.
  - now rewrite !length_map.
  - intros i name Hi.
    exists (boto3_client (PStr name) region key secret).
    split; [| repeat split].
    rewrite !list_lookup_fmap, Hi. reflexivity.
Qed.

Lemma create_aws_clients_witness :
  exists handles,
    create_aws_clients (PList [PStr "s3"; PStr "ec2"]) (PStr "us-west-2")
      (PStr "AKIAEXAMPLE") (PStr "s3cr3t") = Ok handles
    /\ length handles = 2%nat
    /\ exists h, handles !! 1%nat = Some h
                 /\ service_name h = PStr "ec2"
                 /\ region_name h = PStr "us-west-2".
Proof.
  destruct (create_aws_clients_one_handle_per_name ["s3"; "ec2"]
              (PStr "us-west-2") (PStr "AKIAEXAMPLE") (PStr "s3cr3t"))
    as (_ & handles & Hrun & Hlen & Hnth).
  exists handles. split; [exact Hrun |]. split; [exact Hlen |].
  destruct (Hnth 1%nat "ec2" eq_refl) as (h & Hh & Hname & Hregion & _).
  exists h. auto.
Defined.

(** C5. For every service name, the factory applied to the name alone
    returns the same result as the factory applied to the one-element list
    holding it: the single handle for that name. *)
Theorem create_aws_clients_scalar_as_singleton
    (s : string) (region key secret : pyval) :
  create_aws_clients (PStr s) region key secret
  = create_aws_clients (PList [PStr s]) region key secret
  /\ create_aws_clients (PStr s) region key secret
     = Ok [boto3_client (PStr s) region key secret].
Proof. split; reflexivity. Qed.

(** ** Role creation *)

Section RoleCreation.

Variable provider : Provider.
Variables (iam : Client) (name : pyval).

Lemma create_role_refused (w : World) (e : exn) :
  provider (calls w) (create_role_call iam name) = Raise e ->
  is_Exception e = true ->
  create_iam_role_try provider iam name w = (Ok tt, after_refusal iam name w e).
Proof.
  intros Hp He. unfold create_iam_role_try. unfold_run.
  rewrite Hp, He. unfold after_refusal. now flatten_world.
Qed.

Lemma create_role_accepted (w : World) (v : pyval) :
  provider (calls w) (create_role_call iam name) = Ok v ->
  create_iam_role_try provider iam name w
  = (Ok tt, {| calls := calls w ++ [create_role_call iam name];
               stdout := stdout w ++ [Text "1.1 Creating a new IAM Role"] |}).
Proof.
  intros Hp. unfold create_iam_role_try. unfold_run. now rewrite Hp.
Qed.

(** Whatever happens, the [try] makes exactly the [create_role] call. *)
Lemma create_iam_role_try_calls (w : World) :
  calls (snd (create_iam_role_try provider iam name w))
  = calls w ++ [create_role_call iam name].
Proof.
  unfold create_iam_role_try. unfold_run.
  destruct (provider _ _) as [v | e]; [reflexivity |].
  destruct (is_Exception e); reflexivity.
Qed.

(** What follows the [try] starts by announcing and requesting the
    attachment. *)
Lemma create_iam_role_rest_starts (w : World) :
  exists tail more,
    calls (snd (create_iam_role_rest provider iam name w))
    = calls w ++ attach_role_policy_call iam name :: tail
    /\ stdout (snd (create_iam_role_rest provider iam name w))
       = stdout w ++ Text "1.2 Attaching Policy" :: more.
Proof.
  unfold create_iam_role_rest. unfold_run.
  repeat case_match; flatten_world; eauto.
Qed.

End RoleCreation.

(** C8. If the role-creation call raises an already-exists error (or any
    other exception of class Exception), the error is caught and printed
    and is not propagated: the function goes on exactly as its remaining
    steps do from the world where the error was printed, and these start
    with the policy attachment. *)
Theorem role_already_exists_is_logged_not_raised
    (provider : Provider) (iam : Client) (name : pyval) (w : World) (e : exn) :
  provider (calls w) (create_role_call iam name) = Raise e ->
  is_Exception e = true ->
  create_iam_role_try provider iam name w = (Ok tt, after_refusal iam name w e)
  /\ create_iam_role provider iam name w
     = create_iam_role_rest provider iam name (after_refusal iam name w e)
  /\ exists tail more,
       issued (create_iam_role provider iam name) w
       = create_role_call iam name :: attach_role_policy_call iam name :: tail
       /\ output (create_iam_role provider iam name) w
          = Text "1.1 Creating a new IAM Role" :: ExnText e
              :: Text "1.2 Attaching Policy" :: more.
Proof.
  intros Hp He.
  pose proof (create_role_refused provider iam name w e Hp He) as Htry.
  assert (Hrun : create_iam_role provider iam name w
                 = create_iam_role_rest provider iam name (after_refusal iam name w e)).
  { unfold create_iam_role, bind. now rewrite Htry. }
  split; [exact Htry |]. split; [exact Hrun |].
  destruct (create_iam_role_rest_starts provider iam name (after_refusal iam name w e))
    as (tail & more & Hc & Ho).
  exists tail, more. split.
  - apply issued_app. rewrite Hrun, Hc. unfold after_refusal. now flatten_world.
  - apply output_app. rewrite Hrun, Ho. unfold after_refusal. now flatten_world.
Qed.

Lemma role_already_exists_witness :
  issued (create_iam_role (provider_failing "create_role" already_exists)
            sample_iam (PStr "dwhRole")) W0
  = [create_role_call sample_iam (PStr "dwhRole");
     attach_role_policy_call sample_iam (PStr "dwhRole");
     get_role_call sample_iam (PStr "dwhRole")]
  /\ create_iam_role (provider_failing "create_role" already_exists)
       sample_iam (PStr "dwhRole") W0
     = create_iam_role_rest (provider_failing "create_role" already_exists)
         sample_iam (PStr "dwhRole")
         (after_refusal sample_iam (PStr "dwhRole") W0 already_exists).
Proof.
  split; [vm_compute; reflexivity |].
  apply (role_already_exists_is_logged_not_raised
           (provider_failing "create_role" already_exists)
           sample_iam (PStr "dwhRole") W0 already_exists);
    reflexivity.
Defined.

(** ** The calls of the two entry points *)

Lemma main_trace (provider : Provider) (config : Config) (w : World) :
  exists tr, calls (snd (main provider config w)) = calls w ++ tr
             /\ provisioner_trace provider config (calls w) tr.
Proof.
  unfold main, create_iam_role, create_iam_role_try, create_iam_role_rest,
    create_redshift_cluster, display_cluster_props.
  run.
  all: try (exists []; split; [ now rewrite app_nil_r | econstructor; eauto ]; fail).
  all: eexists; split; [reflexivity |].
  all: try (eapply (trace_role _ _ _ _ _ _ 0); eassumption).
  all: try (eapply (trace_role _ _ _ _ _ _ 1); eassumption).
  all: try (eapply (trace_role _ _ _ _ _ _ 2); eassumption).
  all: try (eapply (trace_cluster _ _ _ _ _ _ _ _ _ [_]); eauto;
            econstructor; eauto; fail).
  all: eapply (trace_cluster _ _ _ _ _ _ _ _ _ [_; _]); eauto;
       econstructor; eauto.
Qed.

Lemma main_issued (provider : Provider) (config : Config) (w : World) :
  provisioner_trace provider config (calls w) (issued (main provider config) w).
Proof.
  destruct (main_trace provider config w) as (tr & E & T).
  now rewrite (issued_app _ _ _ E).
Qed.

Lemma main_requests_trace (provider : Provider) (iam redshift : Client)
    (config : Config) (w : World) :
  exists tr,
    calls (snd (DeleteCluster.main_requests provider iam redshift config w))
    = calls w ++ tr
    /\ decommission_trace config iam redshift tr.
Proof.
  unfold DeleteCluster.main_requests. run.
  all: try (exists []; split; [ now rewrite app_nil_r | econstructor; eauto ]; fail).
  all: eexists; split; [reflexivity |].
  all: try (eapply dtrace_cluster; eassumption).
  all: try (eapply (dtrace_role _ _ _ _ _ 0); eassumption).
  all: eapply (dtrace_role _ _ _ _ _ 1); eassumption.
Qed.

Lemma main_requests_issued (provider : Provider) (iam redshift : Client)
    (config : Config) (w : World) :
  decommission_trace config iam redshift
    (issued (DeleteCluster.main_requests provider iam redshift config) w).
Proof.
  destruct (main_requests_trace provider iam redshift config w) as (tr & E & T).
  now rewrite (issued_app _ _ _ E).
Qed.

(** [DeleteCluster.main] stops before its first request, on every
    configuration: the world it leaves is the world it found. *)
Lemma delete_main_stops (provider : Provider) (config : Config) (w : World) :
  exists e, DeleteCluster.main provider config w = (Raise e, w).
Proof.
  unfold DeleteCluster.main. unfold_run.
  destruct (config_get config "AWS" "KEY"); [| eauto].
  destruct (config_get config "AWS" "SECRET"); [| eauto].
  cbn. eauto.
Qed.

Lemma delete_main_issues_nothing (provider : Provider) (config : Config) (w : World) :
  issued (DeleteCluster.main provider config) w = [].
Proof.
  destruct (delete_main_stops provider config w) as (e & He).
  apply issued_app. rewrite He. cbn. now rewrite app_nil_r.
Qed.


Lemma valid_config_credentials (config : Config) :
  valid_config config = true ->
  exists key secret role,
    config_get config "AWS" "KEY" = Ok key
    /\ config_get config "AWS" "SECRET" = Ok secret
    /\ config_get config "DWH" "DWH_IAM_ROLE_NAME" = Ok role.
Proof.
  unfold valid_config, required_keys, provides. cbn [forallb fst snd].
  destruct (config_get config "AWS" "KEY") as [key |]; [| discriminate].
  destruct (config_get config "AWS" "SECRET") as [secret |]; [| discriminate].
  destruct (config_get config "DWH" "DWH_IAM_ROLE_NAME") as [role |];
    [| discriminate].
  intros _. now exists key, secret, role.
Qed.

Lemma role_call_operation (iam : Client) (name : pyval) (c : Call) :
  c ∈ role_calls iam name -> operation c <> "create_cluster".
Proof.
  unfold role_calls. rewrite !elem_of_cons, elem_of_nil.
  intros [-> | [-> | [-> | []]]]; discriminate.
Qed.

(** ** The Provisioner *)

(** C3. For every valid configuration, the first request of the
    Provisioner is the role creation; and whenever it requests the cluster
    creation, the role creation was requested before it, the policy
    attachment was requested before the read-back of the role, the
    read-back before the cluster creation, and the role passed to the
    cluster creation is the ARN which that read-back answered. *)
Theorem provisioner_requests_in_order
    (provider : Provider) (config : Config) (w : World) :
  valid_config config = true ->
  exists key secret role,
    config_get config "AWS" "KEY" = Ok key
    /\ config_get config "AWS" "SECRET" = Ok secret
    /\ config_get config "DWH" "DWH_IAM_ROLE_NAME" = Ok role
    /\ let iam := iam_handle key secret in
       let tr := issued (main provider config) w in
       tr !! 0%nat = Some (create_role_call iam (PStr role))
       /\ forall c, c ∈ tr -> operation c = "create_cluster" ->
            before tr (create_role_call iam (PStr role)) c
            /\ before tr (attach_role_policy_call iam (PStr role))
                         (get_role_call iam (PStr role))
            /\ before tr (get_role_call iam (PStr role)) c
            /\ exists got described arn,
                 provider (calls w ++ [create_role_call iam (PStr role);
                                       attach_role_policy_call iam (PStr role)])
                          (get_role_call iam (PStr role)) = Ok got
                 /\ py_getitem got (PStr "Role") = Ok described
                 /\ py_getitem described (PStr "Arn") = Ok arn
                 /\ assoc "IamRoles" (kwargs c) = Some (PList [arn]).
Proof.
  intros Hvalid.
  destruct (valid_config_credentials config Hvalid) as (key & secret & role & Hk & Hs & Hr).
  exists key, secret, role. repeat (split; [assumption |]).
  cbn zeta.
  pose proof (main_issued provider config w) as T.
  inversion T as [ e He Htr
                 | key' secret' role' n Hk' Hs' Hr' Htr
                 | key' secret' role' got described arn tail
                     Hk' Hs' Hr' Hgot Hrole Harn Htail Htr ].
  - destruct He as [He | [He | He]]; congruence.
  - assert (key' = key) by congruence. assert (secret' = secret) by congruence.
    assert (role' = role) by congruence. subst key' secret' role'.
    split; [reflexivity |].
    intros c Hc Hop.
    change (c ∈ take (S n) (role_calls (iam_handle key secret) (PStr role))) in Hc.
    apply elem_of_take in Hc as (i & Hc & _).
    apply list_elem_of_lookup_2 in Hc.
    now apply role_call_operation in Hc.
  - assert (key' = key) by congruence. assert (secret' = secret) by congruence.
    assert (role' = role) by congruence. subst key' secret' role'.
    split; [reflexivity |].
    intros c Hc Hop.
    change (c ∈ role_calls (iam_handle key secret) (PStr role) ++ tail) in Hc.
    apply elem_of_app in Hc as [Hc | Hc];
      [now apply role_call_operation in Hc |].
    assert (Hhead : exists rest, tail = c :: rest
                                 /\ assoc "IamRoles" (kwargs c) = Some (PList [arn])).
    { destruct Htail as [cid Hcid | ct nt nn m db cid user pw rest].
      - apply list_elem_of_singleton in Hc. subst c. discriminate.
      - apply elem_of_cons in Hc as [-> | Hc]; [eauto |].
        exfalso.
        match goal with
        | H : rest = [] \/ _ |- _ => destruct H as [-> | ->]
        end.
        + now apply elem_of_nil in Hc.
        + apply list_elem_of_singleton in Hc. subst c. discriminate. }
    destruct Hhead as (rest & -> & Hroles).
    split; [exists 0%nat, 3%nat; repeat split; (lia || reflexivity) |].
    split; [exists 1%nat, 2%nat; repeat split; (lia || reflexivity) |].
    split; [exists 2%nat, 3%nat; repeat split; (lia || reflexivity) |].
    exists got, described, arn. repeat split; assumption.
Qed.

Lemma provisioner_order_witness :
  exists tr,
    tr = issued (main provider_ok sample_config) W0
    /\ length tr = 5%nat
    /\ before tr (create_role_call sample_iam (PStr "dwhRole"))
                 (create_cluster_call sample_redshift (PStr "multi-node")
                    (PStr "dc2.large") 4 (PStr "dwh") (PStr "dwhCluster")
                    (PStr "dwhuser") (PStr "Passw0rd") sample_arn).
Proof.
  eexists. split; [reflexivity |]. split; [vm_compute; reflexivity |].
  destruct (provisioner_requests_in_order provider_ok sample_config W0)
    as (key & secret & role & Hk & Hs & Hr & _ & Horder);
    [vm_compute; reflexivity |].
  vm_compute in Hk, Hs, Hr.
  injection Hk as <-. injection Hs as <-. injection Hr as <-.
  apply Horder; [| reflexivity].
  apply list_elem_of_lookup. exists 3%nat. vm_compute. reflexivity.
Defined.

Lemma cluster_calls_member (config : Config) (redshift : Client) (arn : pyval)
    (tail : list Call) (c : Call) :
  cluster_calls config redshift arn tail ->
  c ∈ tail ->
  (exists cid, c = describe_clusters_call redshift (PStr cid))
  \/ exists ct nt nn n db cid user pw,
       config_get config "DWH" "DWH_NUM_NODES" = Ok nn
       /\ py_int nn = Ok n
       /\ c = create_cluster_call redshift (PStr ct) (PStr nt) n (PStr db)
                (PStr cid) (PStr user) (PStr pw) arn.
Proof.
  intros [cid Hcid | ct nt nn n db cid user pw rest ? ? Hnn Hn ? ? ? ? Hrest] Hc.
  - apply list_elem_of_singleton in Hc. eauto.
  - apply elem_of_cons in Hc as [-> | Hc].
    + right. exists ct, nt, nn, n, db, cid, user, pw. auto.
    + destruct Hrest as [-> | ->].
      * now apply elem_of_nil in Hc.
      * apply list_elem_of_singleton in Hc. eauto.
Qed.

(** Every call of [main] is made on one of the two handles, and is one of
    the role's calls or one of the cluster's. *)
Lemma provisioner_trace_member (provider : Provider) (config : Config)
    (history tr : list Call) (c : Call) :
  provisioner_trace provider config history tr ->
  c ∈ tr ->
  exists key secret,
    config_get config "AWS" "KEY" = Ok key
    /\ config_get config "AWS" "SECRET" = Ok secret
    /\ ((exists role, c ∈ role_calls (iam_handle key secret) (PStr role))
        \/ exists arn tail,
             cluster_calls config (redshift_handle key secret) arn tail
             /\ c ∈ tail).
Proof.
  intros [ e He | key secret role n Hk Hs Hr
         | key secret role got described arn tail Hk Hs Hr Hgot Hrole Harn Htail ] Hc.
  - now apply elem_of_nil in Hc.
  - exists key, secret. repeat (split; [assumption |]). left. exists role.
    apply elem_of_take in Hc as (i & Hc & _).
    now apply list_elem_of_lookup_2 in Hc.
  - exists key, secret. repeat (split; [assumption |]).
    apply elem_of_app in Hc as [Hc | Hc]; [left | right]; eauto.
Qed.



(** ** Region and credentials *)

Lemma sample_config_eu_region :
  config_get sample_config_eu "AWS" "REGION" = Ok "eu-west-1".
Proof. vm_compute. reflexivity. Qed.

(** Against C10 as stated: under a configuration whose region entry is
    eu-west-1, the Provisioner issues its five requests and every one of
    them goes through a client bound to us-west-2. *)
Lemma region_not_read_from_config :
  config_get sample_config_eu "AWS" "REGION" = Ok "eu-west-1"
  /\ length (issued (main provider_ok sample_config_eu) W0) = 5%nat
  /\ Forall (fun c => region_name (target c) = PStr "us-west-2"
                      /\ region_name (target c) <> PStr "eu-west-1")
       (issued (main provider_ok sample_config_eu) W0).
Proof.
  split; [apply sample_config_eu_region |].
  split; [vm_compute; reflexivity |].
  vm_compute. repeat constructor; discriminate.
Qed.

(** C10, amended. The access key and the secret of every client of the
    Provisioner are the configuration's [AWS.KEY] and [AWS.SECRET]; the
    region is the string us-west-2 written in the program, whatever the
    configuration holds. *)
Theorem provisioner_region_is_fixed
    (provider : Provider) (config : Config) (w : World) (c : Call) :
  c ∈ issued (main provider config) w ->
  region_name (target c) = PStr "us-west-2"
  /\ exists key secret,
       config_get config "AWS" "KEY" = Ok key
       /\ config_get config "AWS" "SECRET" = Ok secret
       /\ aws_access_key_id (target c) = PStr key
       /\ aws_secret_access_key (target c) = PStr secret.
Proof.
  intros Hc.
  destruct (provisioner_trace_member _ _ _ _ _ (main_issued provider config w) Hc)
    as (key & secret & Hk & Hs & [(role & Hrole) | (arn & tail & Htail & Hin)]).
  - unfold role_calls in Hrole. rewrite !elem_of_cons, elem_of_nil in Hrole.
    destruct Hrole as [-> | [-> | [-> | []]]];
      (split; [reflexivity | exists key, secret; auto]).
  - destruct (cluster_calls_member _ _ _ _ _ Htail Hin)
      as [(cid & ->) | (ct & nt & nn & m & db & cid & user & pw & _ & _ & ->)];
      (split; [reflexivity | exists key, secret; auto]).
Qed.

Lemma provisioner_region_witness :
  region_name (target (create_role_call sample_iam (PStr "dwhRole")))
  = PStr "us-west-2".
Proof.
  apply (provisioner_region_is_fixed provider_ok sample_config_eu W0).
  apply list_elem_of_lookup. exists 0%nat. vm_compute. reflexivity.
Defined.

(** ** The Decommissioner *)

(** Once the two handles are bound, the three requests of
    [DeleteCluster.main] come in the order cluster deletion, policy
    detachment, role deletion. *)
Lemma main_requests_order (provider : Provider) (iam redshift : Client)
    (config : Config) (w : World) (c : Call) :
  c ∈ issued (DeleteCluster.main_requests provider iam redshift config) w ->
  operation c = "delete_role" ->
  exists cid role,
    let tr := issued (DeleteCluster.main_requests provider iam redshift config) w in
    before tr (DeleteCluster.delete_cluster_call redshift (PStr cid)) c
    /\ before tr (DeleteCluster.detach_role_policy_call iam (PStr role)) c.
Proof.
  intros Hc Hop.
  pose proof (main_requests_issued provider iam redshift config w) as T.
  destruct T as [e He | cid Hcid | cid role n Hcid Hrole].
  - now apply elem_of_nil in Hc.
  - apply list_elem_of_singleton in Hc. subst c. discriminate.
  - exists cid, role. cbn zeta.
    destruct n as [| n]; cbn in Hc |- *.
    + rewrite !elem_of_cons, elem_of_nil in Hc.
      destruct Hc as [-> | [-> | []]]; discriminate.
    + rewrite !elem_of_cons in Hc.
      destruct Hc as [-> | [-> | [-> | Hc]]]; try discriminate.
      * split; [exists 0%nat, 2%nat | exists 1%nat, 2%nat];
          repeat split; (lia || reflexivity).
      * rewrite take_nil in Hc. now apply elem_of_nil in Hc.
Qed.

(** C1, on the code. Under the sample configuration, which provides every
    field, and a provider that accepts every call, [DeleteCluster.main]
    raises the missing-argument error and issues no request at all:
    neither the role deletion nor the two requests meant to precede it. *)
Theorem decommissioner_issues_nothing_on_sample :
  valid_config sample_config = true
  /\ DeleteCluster.main provider_ok sample_config W0 = (Raise missing_secret, W0)
  /\ issued (DeleteCluster.main provider_ok sample_config) W0 = [].
Proof.
  split; [vm_compute; reflexivity |].
  split; vm_compute; reflexivity.
Qed.




(** C7. Every cluster-deletion request of the Decommissioner, whether
    counted over [main] or over its requests once the handles are bound,
    carries [SkipFinalClusterSnapshot] set to [True]. *)
Theorem deletion_skips_final_snapshot
    (provider : Provider) (iam redshift : Client) (config : Config)
    (w : World) (c : Call) :
  c ∈ issued (DeleteCluster.main provider config) w
  \/ c ∈ issued (DeleteCluster.main_requests provider iam redshift config) w ->
  operation c = "delete_cluster" ->
  assoc "SkipFinalClusterSnapshot" (kwargs c) = Some (PBool true).
Proof.
  intros [Hc | Hc] Hop.
  - rewrite delete_main_issues_nothing in Hc.
    now apply elem_of_nil in Hc.
  - pose proof (main_requests_issued provider iam redshift config w) as T.
    destruct T as [e He | cid Hcid | cid role n Hcid Hrole].
    + now apply elem_of_nil in Hc.
    + apply list_elem_of_singleton in Hc. now subst c.
    + apply elem_of_take in Hc as (i & Hc & _).
      apply list_elem_of_lookup_2 in Hc.
      unfold decommission_calls in Hc. rewrite !elem_of_cons, elem_of_nil in Hc.
      destruct Hc as [-> | [-> | [-> | []]]]; [reflexivity | discriminate ..].
Qed.

Lemma deletion_skips_final_snapshot_witness :
  assoc "SkipFinalClusterSnapshot"
    (kwargs (DeleteCluster.delete_cluster_call sample_redshift (PStr "dwhCluster")))
  = Some (PBool true).
Proof.
  apply (deletion_skips_final_snapshot provider_ok sample_iam sample_redshift
           sample_config W0).
  - right. apply list_elem_of_lookup. exists 0%nat. vm_compute. reflexivity.
  - reflexivity.
Defined.

(** ** Failures during creation *)

(** Against C9 as stated: when the provider refuses the policy attachment,
    the exception reaches the caller of [main]; it is not printed, and
    execution does not continue (no cluster creation is requested). *)
Lemma attach_failure_is_propagated :
  fst (main (provider_failing "attach_role_policy" access_denied) sample_config W0)
  = Raise access_denied
  /\ stdout (snd (main (provider_failing "attach_role_policy" access_denied)
                    sample_config W0))
     = [Text "1.1 Creating a new IAM Role"; Text "1.2 Attaching Policy"]
  /\ issued (main (provider_failing "attach_role_policy" access_denied)
               sample_config) W0
     = [create_role_call sample_iam (PStr "dwhRole");
        attach_role_policy_call sample_iam (PStr "dwhRole")].
Proof. repeat split; vm_compute; reflexivity. Qed.

Lemma get_role_failure_is_propagated :
  fst (main (provider_failing "get_role" access_denied) sample_config W0)
  = Raise access_denied
  /\ issued (main (provider_failing "get_role" access_denied) sample_config) W0
     = role_calls sample_iam (PStr "dwhRole").
Proof. repeat split; vm_compute; reflexivity. Qed.

(** C9, amended. A failure (of class Exception) raised by the
    role-creation call or by the cluster-creation call is printed and the
    function returns normally, so execution continues.  A failure raised by
    the policy attachment or by the read-back of the role is not caught: it
    is the result of the rest of [create_iam_role] without being printed,
    and [main] hands whatever [create_iam_role] raises to its caller. *)
Theorem creation_failures_logged_around_create_calls_only
    (provider : Provider) (e : exn) :
  (forall iam name w,
     provider (calls w) (create_role_call iam name) = Raise e ->
     is_Exception e = true ->
     create_iam_role_try provider iam name w
     = (Ok tt, {| calls := calls w ++ [create_role_call iam name];
                  stdout := stdout w ++ [Text "1.1 Creating a new IAM Role";
                                         ExnText e] |}))
  /\ (forall redshift ct nt nodes n db cid user pw arn w,
        py_int_of nodes = Ok n ->
        provider (calls w)
          (create_cluster_call redshift ct nt n db cid user pw arn) = Raise e ->
        is_Exception e = true ->
        create_redshift_cluster provider redshift ct nt nodes db cid user pw arn w
        = (Ok tt,
           {| calls := calls w
                       ++ [create_cluster_call redshift ct nt n db cid user pw arn];
              stdout := stdout w ++ [ExnText e] |}))
  /\ (forall iam name w,
        provider (calls w) (attach_role_policy_call iam name) = Raise e ->
        create_iam_role_rest provider iam name w
        = (Raise e,
           {| calls := calls w ++ [attach_role_policy_call iam name];
              stdout := stdout w ++ [Text "1.2 Attaching Policy"] |}))
  /\ (forall iam name w attached metadata status,
        provider (calls w) (attach_role_policy_call iam name) = Ok attached ->
        py_getitem attached (PStr "ResponseMetadata") = Ok metadata ->
        py_getitem metadata (PStr "HTTPStatusCode") = Ok status ->
        provider (calls w ++ [attach_role_policy_call iam name])
          (get_role_call iam name) = Raise e ->
        create_iam_role_rest provider iam name w
        = (Raise e,
           {| calls := calls w ++ [attach_role_policy_call iam name;
                                   get_role_call iam name];
              stdout := stdout w ++ [Text "1.2 Attaching Policy";
                                     Text "1.3 Get the IAM role ARN"] |}))
  /\ (forall config key secret role w,
        config_get config "AWS" "KEY" = Ok key ->
        config_get config "AWS" "SECRET" = Ok secret ->
        config_get config "DWH" "DWH_IAM_ROLE_NAME" = Ok role ->
        fst (create_iam_role provider (iam_handle key secret) (PStr role) w)
        = Raise e ->
        main provider config w
        = (Raise e,
           snd (create_iam_role provider (iam_handle key secret) (PStr role) w))).
Proof.
  split; [| split; [| split; [| split]]].
  - intros iam name w Hp He. exact (create_role_refused provider iam name w e Hp He).
  - intros redshift ct nt nodes n db cid user pw arn w Hn Hp He.
    unfold create_redshift_cluster. unfold_run. now rewrite Hn, Hp, He.
  - intros iam name w Hp. unfold create_iam_role_rest. unfold_run.
    now rewrite Hp.
  - intros iam name w attached metadata status Ha Hm Hst Hp.
    unfold create_iam_role_rest. unfold_run.
    rewrite Ha, Hm, Hst, Hp. now flatten_world.
  - intros config key secret role w Hk Hs Hr Hraise.
    unfold main. unfold bind at 1. unfold lift at 1. rewrite Hk.
    unfold bind at 1. unfold lift at 1. rewrite Hs.
    unfold bind at 1. unfold lift at 1. rewrite main_handles.
    unfold bind at 1. unfold lift at 1. cbn [unpack2].
    unfold bind at 1. unfold lift at 1. rewrite Hr.
    unfold bind at 1.
    destruct (create_iam_role provider (iam_handle key secret) (PStr role) w)
      as [[arn | e'] w'].
    + discriminate.
    + cbn in Hraise. now injection Hraise as ->.
Qed.

Lemma creation_failures_witness :
  create_iam_role_rest (provider_failing "attach_role_policy" access_denied)
    sample_iam (PStr "dwhRole") W0
  = (Raise access_denied,
     {| calls := [attach_role_policy_call sample_iam (PStr "dwhRole")];
        stdout := [Text "1.2 Attaching Policy"] |})
  /\ create_redshift_cluster (provider_failing "create_cluster" access_denied)
       sample_redshift (PStr "multi-node") (PStr "dc2.large") (PStr "4")
       (PStr "dwh") (PStr "dwhCluster") (PStr "dwhuser") (PStr "Passw0rd")
       sample_arn W0
     = (Ok tt,
        {| calls := [create_cluster_call sample_redshift (PStr "multi-node")
                       (PStr "dc2.large") 4 (PStr "dwh") (PStr "dwhCluster")
                       (PStr "dwhuser") (PStr "Passw0rd") sample_arn];
           stdout := [ExnText access_denied] |}).
Proof.
  split.
  - apply (proj1 (proj2 (proj2
             (creation_failures_logged_around_create_calls_only
                (provider_failing "attach_role_policy" access_denied)
                access_denied)))
             sample_iam (PStr "dwhRole") W0).
    reflexivity.
  - apply (proj1 (proj2
             (creation_failures_logged_around_create_calls_only
                (provider_failing "create_cluster" access_denied)
                access_denied))
             sample_redshift (PStr "multi-node") (PStr "dc2.large") (PStr "4") 4
             (PStr "dwh") (PStr "dwhCluster") (PStr "dwhuser") (PStr "Passw0rd")
             sample_arn W0);
      reflexivity.
Defined.

(** * Further properties of the two scripts *)

(** Identify the answers two hypotheses give for the same question. *)
Ltac settle :=
  repeat (simplify_eq;
          match goal with
          | H1 : ?x = _, H2 : ?x = _ |- _ => rewrite H1 in H2
          end);
  simplify_eq.

(** Use the hypothesis that [create_role] raises nothing but exceptions of
    class Exception against a branch where it raised another one. *)
Ltac no_interrupt :=
  match goal with
  | H : forall e, Raise ?x = Raise e -> _ |- _ => specialize (H x eq_refl)
  end; congruence.

(** Whatever [int] raises is of class Exception. *)
Lemma py_int_of_error (v : pyval) (e : exn) :
  py_int_of v = Raise e -> is_Exception e = true.
Proof.
  unfold py_int_of, py_int. repeat case_match; intros; simplify_eq; reflexivity.
Qed.


(** ** The client factory and the tuple assignment *)

(** X1. The assignment [iam, redshift = create_aws_clients(names, ...)]
    succeeds exactly when the list holds two names, and then binds the
    handle of the first name and the handle of the second, in this order;
    with a lone string for [names] it always fails, for want of a second
    handle. *)
Theorem two_names_bind_two_handles
    (names : list pyval) (region key secret : pyval) (handles : list Client) :
  create_aws_clients (PList names) region key secret = Ok handles ->
  ((exists first second, unpack2 handles = Ok (first, second))
   <-> length names = 2%nat)
  /\ (forall first second,
        unpack2 handles = Ok (first, second) ->
        names = [service_name first; service_name second]
        /\ first = boto3_client (service_name first) region key secret
        /\ second = boto3_client (service_name second) region key secret)
  /\ forall s lone,
       create_aws_clients (PStr s) region key secret = Ok lone ->
       unpack2 lone = Raise (ValueError "not enough values to unpack (expected 2)").
Proof.
  rewrite create_aws_clients_list. intros [= <-]. split; [| split].
  - destruct names as [| a [| b [| c rest]]]; cbn; split;
      try discriminate; try (intros (? & ? & ?); discriminate); eauto.
  - intros first second.
    destruct names as [| a [| b [| c rest]]]; cbn; try discriminate.
    intros [= <- <-]. auto.
  - intros s lone [= <-]. reflexivity.
Qed.

Lemma two_names_witness :
  unpack2 [sample_iam; sample_redshift] = Ok (sample_iam, sample_redshift)
  /\ length [PStr "iam"; PStr "redshift"] = 2%nat.
Proof.
  split; [reflexivity |].
  apply (proj1 (two_names_bind_two_handles
                  [PStr "iam"; PStr "redshift"] (PStr "us-west-2")
                  (PStr "AKIAEXAMPLE") (PStr "s3cr3t")
                  [sample_iam; sample_redshift] eq_refl)).
  exists sample_iam, sample_redshift. reflexivity.
Defined.

(** ** [create_iam_role] *)

(** X2. [create_iam_role] returns an ARN exactly when [create_role] raised
    nothing outside class Exception, the attachment was accepted with a
    response holding [ResponseMetadata.HTTPStatusCode], and [get_role] was
    accepted; the ARN returned is then [Role.Arn] of what [get_role]
    answered. *)
Theorem create_iam_role_returns_read_back_arn
    (provider : Provider) (iam : Client) (name : pyval) (w : World) (arn : pyval) :
  fst (create_iam_role provider iam name w) = Ok arn <->
  (forall e, provider (calls w) (create_role_call iam name) = Raise e ->
             is_Exception e = true)
  /\ exists attached metadata status got described,
       provider (calls w ++ [create_role_call iam name])
         (attach_role_policy_call iam name) = Ok attached
       /\ py_getitem attached (PStr "ResponseMetadata") = Ok metadata
       /\ py_getitem metadata (PStr "HTTPStatusCode") = Ok status
       /\ provider (calls w ++ [create_role_call iam name;
                                attach_role_policy_call iam name])
            (get_role_call iam name) = Ok got
       /\ py_getitem got (PStr "Role") = Ok described
       /\ py_getitem described (PStr "Arn") = Ok arn.
Proof.
  unfold create_iam_role, create_iam_role_try, create_iam_role_rest.
  split.
  - run; intros H; try discriminate H; simplify_eq.
    all: split; [intros ? ?; congruence || (intros; simplify_eq; assumption)
                | eauto 12].
  - intros (Hexn & attached & metadata & status & got & described
            & Ha & Hm & Hs & Hg & Hr & Harn).
    run; settle; try reflexivity.
    all: no_interrupt.
Qed.

Lemma create_iam_role_witness :
  fst (create_iam_role (provider_failing "create_role" already_exists)
         sample_iam (PStr "dwhRole") W0)
  = Ok sample_arn.
Proof.
  apply create_iam_role_returns_read_back_arn. split.
  - intros e [= <-]. reflexivity.
  - eexists _, _, _, _, _. repeat split; vm_compute; reflexivity.
Defined.

(** X3. When the attachment is accepted but its response lacks
    [ResponseMetadata], or that lacks [HTTPStatusCode], [create_iam_role]
    raises the lookup error and the role is never read back: the only
    requests are the creation and the attachment. *)
Theorem malformed_attachment_stops_role_creation
    (provider : Provider) (iam : Client) (name : pyval) (w : World)
    (attached : pyval) (e : exn) :
  (forall e', provider (calls w) (create_role_call iam name) = Raise e' ->
              is_Exception e' = true) ->
  provider (calls w ++ [create_role_call iam name])
    (attach_role_policy_call iam name) = Ok attached ->
  py_getitem attached (PStr "ResponseMetadata") = Raise e
  \/ (exists metadata,
        py_getitem attached (PStr "ResponseMetadata") = Ok metadata
        /\ py_getitem metadata (PStr "HTTPStatusCode") = Raise e) ->
  fst (create_iam_role provider iam name w) = Raise e
  /\ issued (create_iam_role provider iam name) w
     = [create_role_call iam name; attach_role_policy_call iam name].
Proof.
  intros Hexn Ha Hbad.
  split; [| apply issued_app]; revert Hexn Ha Hbad;
    unfold create_iam_role, create_iam_role_try, create_iam_role_rest;
    run; intros Hexn Ha [Hbad | (metadata & Hm & Hbad)]; settle; try reflexivity.
  all: no_interrupt.
Qed.

Lemma malformed_attachment_witness :
  fst (create_iam_role (provider_answering "attach_role_policy" (PDict []))
         sample_iam (PStr "dwhRole") W0)
  = Raise (KeyError (PStr "ResponseMetadata"))
  /\ issued (create_iam_role (provider_answering "attach_role_policy" (PDict []))
               sample_iam (PStr "dwhRole")) W0
     = [create_role_call sample_iam (PStr "dwhRole");
        attach_role_policy_call sample_iam (PStr "dwhRole")].
Proof.
  apply (malformed_attachment_stops_role_creation
           (provider_answering "attach_role_policy" (PDict []))
           sample_iam (PStr "dwhRole") W0 (PDict [])).
  - intros e' H. vm_compute in H. discriminate H.
  - reflexivity.
  - left. reflexivity.
Defined.

(** ** [create_redshift_cluster] *)



(** X5. [create_redshift_cluster] never hands an exception of class
    Exception to its caller.  Either it returns normally, having printed
    exactly one line and issued at most one request; or the provider raised,
    on the cluster-creation request, an exception outside class Exception,
    which is raised on with nothing printed. *)
Theorem create_redshift_cluster_swallows_exceptions
    (provider : Provider) (redshift : Client)
    (ct nt nodes db cid user pw arn : pyval) (w : World) :
  let run := create_redshift_cluster provider redshift ct nt nodes db cid user pw arn in
  (fst (run w) = Ok tt
   /\ length (output run w) = 1%nat
   /\ (length (issued run w) <= 1)%nat)
  \/ exists e n,
       fst (run w) = Raise e
       /\ is_Exception e = false
       /\ py_int_of nodes = Ok n
       /\ provider (calls w)
            (create_cluster_call redshift ct nt n db cid user pw arn) = Raise e
       /\ output run w = [].
Proof.
  cbn zeta. unfold output, issued, create_redshift_cluster.
  destruct (py_int_of nodes) as [n | e] eqn:Hn.
  - run; rewrite ?drop_app_length, ?drop_all.
    + left. cbn. repeat split; lia.
    + left. cbn. repeat split; lia.
    + right. exists e, n. auto.
  - pose proof (py_int_of_error nodes e Hn) as He.
    unfold_run. rewrite He. flatten_world.
    left. rewrite ?drop_app_length, ?drop_all. cbn. repeat split; lia.
Qed.



(** ** [display_cluster_props] *)

(** X7. [display_cluster_props] issues exactly one request, the
    description of the cluster.  It returns normally, having printed one
    value, exactly when the provider answered and the value is the first
    element of [Clusters] in the answer; whenever it raises it has printed
    nothing; and an answer whose [Clusters] is the empty list makes it raise
    the index error. *)
Theorem display_cluster_props_prints_first_cluster
    (provider : Provider) (redshift : Client) (cid : pyval) (w : World) :
  let run := display_cluster_props provider redshift cid in
  issued run w = [describe_clusters_call redshift cid]
  /\ (forall props,
        (exists described clusters,
           provider (calls w) (describe_clusters_call redshift cid) = Ok described
           /\ py_getitem described (PStr "Clusters") = Ok clusters
           /\ py_getitem clusters (PInt 0) = Ok props)
        <-> fst (run w) = Ok tt /\ output run w = [Repr props])
  /\ (forall e, fst (run w) = Raise e -> output run w = [])
  /\ (forall described,
        provider (calls w) (describe_clusters_call redshift cid) = Ok described ->
        py_getitem described (PStr "Clusters") = Ok (PList []) ->
        fst (run w) = Raise (IndexError "list index out of range")).
Proof.
  cbn zeta. unfold output, issued, display_cluster_props.
  split; [| split; [| split]].
  - run; now rewrite drop_app_length.
  - intros props. split.
    + intros (described & clusters & Hp & Hc & H0). run; settle.
      now rewrite drop_app_length.
    + run; rewrite ?drop_app_length, ?drop_all; intros [Hok Hout];
        try discriminate; simplify_eq; eauto.
  - intros e. run; rewrite ?drop_app_length, ?drop_all; intros; simplify_eq;
      reflexivity.
  - intros described Hp Hc. run; settle; try reflexivity.
    all: match goal with
         | H : py_getitem (PList []) _ = _ |- _ =>
             vm_compute in H; simplify_eq; reflexivity
         end.
Qed.

Lemma display_cluster_props_witness :
  fst (display_cluster_props
         (provider_answering "describe_clusters" (PDict [("Clusters", PList [])]))
         sample_redshift (PStr "dwhCluster") W0)
  = Raise (IndexError "list index out of range").
Proof.
  apply (proj2 (proj2 (proj2
           (display_cluster_props_prints_first_cluster
              (provider_answering "describe_clusters" (PDict [("Clusters", PList [])]))
              sample_redshift (PStr "dwhCluster") W0)))
           (PDict [("Clusters", PList [])]));
    reflexivity.
Defined.

(** ** [main] of create_cluster.py *)

(** Every call of [main], with the field of the configuration it takes
    its role name or cluster identifier from. *)
Lemma provisioner_call_inventory (provider : Provider) (config : Config)
    (history tr : list Call) (c : Call) :
  provisioner_trace provider config history tr ->
  c ∈ tr ->
  exists key secret,
    (exists role,
       config_get config "DWH" "DWH_IAM_ROLE_NAME" = Ok role
       /\ c ∈ role_calls (iam_handle key secret) (PStr role))
    \/ (exists cid,
          config_get config "DWH" "DWH_CLUSTER_IDENTIFIER" = Ok cid
          /\ c = describe_clusters_call (redshift_handle key secret) (PStr cid))
    \/ (exists ct nt n db cid user pw arn,
          config_get config "DWH" "DWH_CLUSTER_IDENTIFIER" = Ok cid
          /\ c = create_cluster_call (redshift_handle key secret) (PStr ct)
                   (PStr nt) n (PStr db) (PStr cid) (PStr user) (PStr pw) arn).
Proof.
  intros [ e He | key secret role n Hk Hs Hr
         | key secret role got described arn tail Hk Hs Hr Hgot Hrole Harn Htail ] Hc.
  - now apply elem_of_nil in Hc.
  - exists key, secret. left. exists role. split; [assumption |].
    apply elem_of_take in Hc as (i & Hc & _).
    now apply list_elem_of_lookup_2 in Hc.
  - exists key, secret.
    apply elem_of_app in Hc as [Hc | Hc]; [left; eauto |]. right.
    destruct Htail
      as [cid Hcid | ct nt nn m db cid user pw rest Hct Hnt Hnn Hm Hdb Hcid Hu Hp Hrest].
    + apply list_elem_of_singleton in Hc. eauto.
    + apply elem_of_cons in Hc as [-> | Hc]; [right; eauto 12 |].
      destruct Hrest as [-> | ->].
      * now apply elem_of_nil in Hc.
      * apply list_elem_of_singleton in Hc. eauto.
Qed.

(** X8. Every request of the Provisioner goes to the service that owns the
    operation: role creation, policy attachment and role read-back to the
    client built for iam, cluster creation and cluster description to the
    client built for redshift; and it requests no other operation. *)
Theorem provisioner_calls_reach_their_service
    (provider : Provider) (config : Config) (w : World) (c : Call) :
  c ∈ issued (main provider config) w ->
  (operation c ∈ ["create_role"; "attach_role_policy"; "get_role"]
   /\ service_name (target c) = PStr "iam")
  \/ (operation c ∈ ["create_cluster"; "describe_clusters"]
      /\ service_name (target c) = PStr "redshift").
Proof.
  intros Hc.
  destruct (provisioner_trace_member _ _ _ _ _ (main_issued provider config w) Hc)
    as (key & secret & Hk & Hs & [(role & Hrole) | (arn & tail & Htail & Hin)]).
  - left. unfold role_calls in Hrole. rewrite !elem_of_cons, elem_of_nil in Hrole.
    destruct Hrole as [-> | [-> | [-> | []]]]; (split; [| reflexivity]);
      cbn; rewrite !elem_of_cons; auto.
  - right.
    destruct (cluster_calls_member _ _ _ _ _ Htail Hin)
      as [(cid & ->) | (ct & nt & nn & m & db & cid & user & pw & _ & _ & ->)];
      (split; [| reflexivity]); cbn; rewrite !elem_of_cons; auto.
Qed.

Lemma provisioner_service_witness :
  (operation (sample_creation 4) ∈ ["create_role"; "attach_role_policy"; "get_role"]
   /\ service_name (target (sample_creation 4)) = PStr "iam")
  \/ (operation (sample_creation 4) ∈ ["create_cluster"; "describe_clusters"]
      /\ service_name (target (sample_creation 4)) = PStr "redshift").
Proof.
  apply (provisioner_calls_reach_their_service provider_ok sample_config W0).
  apply list_elem_of_lookup. exists 3%nat. vm_compute. reflexivity.
Defined.



(** X10. The Provisioner never requests the same operation twice (nothing
    is retried) and issues at most five requests. *)
Theorem provisioner_never_repeats_a_request
    (provider : Provider) (config : Config) (w : World) :
  NoDup (map operation (issued (main provider config) w))
  /\ (length (issued (main provider config) w) <= 5)%nat.
Proof.
  pose proof (main_issued provider config w) as T.
  destruct T as [ | key secret role n Hk Hs Hr
                  | key secret role got described arn tail Hk Hs Hr Hg Hd Ha Htail ].
  - split; [constructor | cbn; lia].
  - destruct n as [| [| n]]; cbn; rewrite ?take_nil; cbn;
      (split; [| lia]); apply (bool_decide_unpack _); vm_compute; exact I.
  - destruct Htail
      as [cid Hcid | ct nt nn m db cid user pw rest Hct Hnt Hnn Hm Hdb Hcid Hu Hp Hrest];
      [| destruct Hrest as [-> | ->]]; cbn; (split; [| lia]);
      apply (bool_decide_unpack _); vm_compute; exact I.
Qed.



(** With every field provided and the role created, what is left of
    [main] is the cluster's creation and its description. *)
Lemma main_after_role (provider : Provider) (config : Config)
    (key secret role ct nt nodes db cid user pw : string)
    (w w1 : World) (arn : pyval) :
  config_fields config key secret role ct nt nodes db cid user pw ->
  create_iam_role provider (iam_handle key secret) (PStr role) w = (Ok arn, w1) ->
  main provider config w
  = (exec create_redshift_cluster provider (redshift_handle key secret)
            (PStr ct) (PStr nt) (PStr nodes) (PStr db) (PStr cid)
            (PStr user) (PStr pw) arn;
     display_cluster_props provider (redshift_handle key secret) (PStr cid)) w1.
Proof.
  intros (Hkey & Hsecret & Hrole & Hct & Hnt & Hnodes & Hdb & Hcid & Huser & Hpw)
         Hcreated.
  unfold main.
  unfold bind at 1. unfold lift at 1. rewrite Hkey.
  unfold bind at 1. unfold lift at 1. rewrite Hsecret.
  unfold bind at 1. unfold lift at 1. rewrite main_handles.
  unfold bind at 1. unfold lift at 1. cbn [unpack2].
  unfold bind at 1. unfold lift at 1. rewrite Hrole.
  unfold bind at 1. rewrite Hcreated.
  unfold bind at 1. unfold lift at 1. rewrite Hct.
  unfold bind at 1. unfold lift at 1. rewrite Hnt.
  unfold bind at 1. unfold lift at 1. rewrite Hnodes.
  unfold bind at 1. unfold lift at 1. rewrite Hdb.
  unfold bind at 1. unfold lift at 1. rewrite Hcid.
  unfold bind at 1. unfold lift at 1. rewrite Huser.
  unfold bind at 1. unfold lift at 1. rewrite Hpw.
  unfold bind at 1 3.
  destruct (create_redshift_cluster _ _ _ _ _ _ _ _ _ _ w1) as [[[] | e] w2];
    reflexivity.
Qed.

Lemma sample_config_fields :
  config_fields sample_config "AKIAEXAMPLE" "s3cr3t" "dwhRole" "multi-node"
    "dc2.large" "4" "dwh" "dwhCluster" "dwhuser" "Passw0rd".
Proof. repeat split; vm_compute; reflexivity. Qed.




(** X13. When the provider refuses the cluster creation with an exception
    of class Exception, [main] prints it and still asks for the description
    of the cluster. *)
Theorem refused_creation_is_still_described
    (provider : Provider) (config : Config)
    (key secret role ct nt nodes db cid user pw : string)
    (w w1 : World) (arn : pyval) (n : Z) (e : exn) :
  config_fields config key secret role ct nt nodes db cid user pw ->
  create_iam_role provider (iam_handle key secret) (PStr role) w = (Ok arn, w1) ->
  py_int nodes = Ok n ->
  provider (calls w1)
    (create_cluster_call (redshift_handle key secret) (PStr ct) (PStr nt) n
       (PStr db) (PStr cid) (PStr user) (PStr pw) arn) = Raise e ->
  is_Exception e = true ->
  calls (snd (main provider config w))
  = calls w1
    ++ [create_cluster_call (redshift_handle key secret) (PStr ct) (PStr nt) n
          (PStr db) (PStr cid) (PStr user) (PStr pw) arn;
        describe_clusters_call (redshift_handle key secret) (PStr cid)]
  /\ exists more,
       stdout (snd (main provider config w)) = stdout w1 ++ ExnText e :: more.
Proof.
  intros Hfields Hcreated Hn Hc He.
  rewrite (main_after_role _ _ _ _ _ _ _ _ _ _ _ _ _ _ _ Hfields Hcreated).
  unfold create_redshift_cluster, display_cluster_props. unfold_run.
  cbn [py_int_of]. rewrite Hn. cbn beta iota. rewrite Hc, He.
  cbn beta iota. cbn [calls stdout].
  repeat run_step; flatten_world; eauto.
Qed.

Lemma refused_creation_witness :
  calls (snd (main (provider_failing "create_cluster" access_denied)
                sample_config W0))
  = calls sample_after_role
    ++ [sample_creation 4;
        describe_clusters_call sample_redshift (PStr "dwhCluster")].
Proof.
  eapply (proj1 (refused_creation_is_still_described
                   (provider_failing "create_cluster" access_denied) sample_config
                   "AKIAEXAMPLE" "s3cr3t" "dwhRole" "multi-node" "dc2.large" "4"
                   "dwh" "dwhCluster" "dwhuser" "Passw0rd" W0 sample_after_role
                   sample_arn 4 access_denied
                   sample_config_fields
                   ltac:(vm_compute; reflexivity) ltac:(vm_compute; reflexivity)
                   ltac:(vm_compute; reflexivity) ltac:(reflexivity))).
Defined.



(** ** [main] of delete_cluster.py, from its first request on *)

Lemma decommission_call_inventory (config : Config) (iam redshift : Client)
    (tr : list Call) (d : Call) :
  decommission_trace config iam redshift tr ->
  d ∈ tr ->
  (exists cid,
     config_get config "DWH" "DWH_CLUSTER_IDENTIFIER" = Ok cid
     /\ d = DeleteCluster.delete_cluster_call redshift (PStr cid))
  \/ exists role,
       config_get config "DWH" "DWH_IAM_ROLE_NAME" = Ok role
       /\ (d = DeleteCluster.detach_role_policy_call iam (PStr role)
           \/ d = DeleteCluster.delete_role_call iam (PStr role)).
Proof.
  intros [e He | cid Hcid | cid role n Hcid Hrole] Hd.
  - now apply elem_of_nil in Hd.
  - apply list_elem_of_singleton in Hd. eauto.
  - apply elem_of_take in Hd as (i & Hd & _).
    apply list_elem_of_lookup_2 in Hd.
    unfold decommission_calls in Hd. rewrite !elem_of_cons, elem_of_nil in Hd.
    destruct Hd as [-> | [-> | [-> | []]]]; eauto 8.
Qed.

(** X15. The three requests of the Decommissioner have no handler around
    them: the policy detachment is requested only if the provider accepted
    the cluster deletion, and the role deletion only if it accepted both the
    cluster deletion and the detachment. *)
Theorem decommission_stops_at_first_failure
    (provider : Provider) (iam redshift : Client) (config : Config)
    (w : World) (c : Call) :
  c ∈ issued (DeleteCluster.main_requests provider iam redshift config) w ->
  (operation c = "detach_role_policy" ->
   exists cid v,
     config_get config "DWH" "DWH_CLUSTER_IDENTIFIER" = Ok cid
     /\ provider (calls w) (DeleteCluster.delete_cluster_call redshift (PStr cid))
        = Ok v)
  /\ (operation c = "delete_role" ->
      exists cid role v v',
        config_get config "DWH" "DWH_CLUSTER_IDENTIFIER" = Ok cid
        /\ config_get config "DWH" "DWH_IAM_ROLE_NAME" = Ok role
        /\ provider (calls w) (DeleteCluster.delete_cluster_call redshift (PStr cid))
           = Ok v
        /\ provider
             (calls w ++ [DeleteCluster.delete_cluster_call redshift (PStr cid)])
             (DeleteCluster.detach_role_policy_call iam (PStr role)) = Ok v').
Proof.
  unfold issued, DeleteCluster.main_requests.
  run; rewrite ?drop_app_length, ?drop_all; intros Hc.
  all: repeat (apply elem_of_cons in Hc as [-> | Hc]);
    try (now apply elem_of_nil in Hc).
  all: split; intros Hop; try discriminate Hop; eauto 10.
Qed.

Lemma decommission_stops_witness :
  exists cid role v v',
    config_get sample_config "DWH" "DWH_CLUSTER_IDENTIFIER" = Ok cid
    /\ config_get sample_config "DWH" "DWH_IAM_ROLE_NAME" = Ok role
    /\ provider_ok (calls W0)
         (DeleteCluster.delete_cluster_call sample_redshift (PStr cid)) = Ok v
    /\ provider_ok
         (calls W0 ++ [DeleteCluster.delete_cluster_call sample_redshift (PStr cid)])
         (DeleteCluster.detach_role_policy_call sample_iam (PStr role)) = Ok v'.
Proof.
  apply (proj2 (decommission_stops_at_first_failure provider_ok
                  sample_iam sample_redshift sample_config W0
                  (DeleteCluster.delete_role_call sample_iam (PStr "dwhRole"))
                  ltac:(apply list_elem_of_lookup; exists 2%nat;
                        vm_compute; reflexivity))).
  reflexivity.
Defined.

(** X16. The Decommissioner's requests return normally exactly when the
    configuration names the cluster and the role and the provider accepted
    the three requests; they are then the cluster deletion, the detachment
    and the role deletion, in this order.  The closing line is printed
    exactly in that case, and nothing is printed when an exception is
    raised. *)
Theorem decommission_success_line_iff_all_deleted
    (provider : Provider) (iam redshift : Client) (config : Config) (w : World) :
  let run := DeleteCluster.main_requests provider iam redshift config in
  (fst (run w) = Ok tt
   <-> exists cid role v v' v'',
         config_get config "DWH" "DWH_CLUSTER_IDENTIFIER" = Ok cid
         /\ config_get config "DWH" "DWH_IAM_ROLE_NAME" = Ok role
         /\ provider (calls w) (DeleteCluster.delete_cluster_call redshift (PStr cid))
            = Ok v
         /\ provider
              (calls w ++ [DeleteCluster.delete_cluster_call redshift (PStr cid)])
              (DeleteCluster.detach_role_policy_call iam (PStr role)) = Ok v'
         /\ provider
              (calls w ++ [DeleteCluster.delete_cluster_call redshift (PStr cid);
                           DeleteCluster.detach_role_policy_call iam (PStr role)])
              (DeleteCluster.delete_role_call iam (PStr role)) = Ok v'')
  /\ (forall cid role,
        config_get config "DWH" "DWH_CLUSTER_IDENTIFIER" = Ok cid ->
        config_get config "DWH" "DWH_IAM_ROLE_NAME" = Ok role ->
        fst (run w) = Ok tt ->
        issued run w = decommission_calls iam redshift (PStr cid) (PStr role))
  /\ (fst (run w) = Ok tt
      <-> output run w = [Text "Cluster and IAM role deleted"])
  /\ ((exists e, fst (run w) = Raise e) <-> output run w = []).
Proof.
  cbn zeta. unfold output, issued, DeleteCluster.main_requests.
  split; [| split; [| split]].
  - split.
    + run; intros H; try discriminate H; eauto 12.
    + intros (cid & role & v & v' & v'' & Hc & Hr & H1 & H2 & H3).
      run; settle; reflexivity.
  - intros cid role Hcid Hrole.
    run; intros H; try discriminate H; settle. now rewrite drop_app_length.
  - split; run; rewrite ?drop_app_length, ?drop_all; intros H;
      try discriminate H; reflexivity.
  - split.
    + intros (e & H). revert H.
      run; rewrite ?drop_app_length, ?drop_all; intros H;
        try discriminate H; reflexivity.
    + run; rewrite ?drop_app_length, ?drop_all; intros H;
        try discriminate H; eauto.
Qed.

Lemma decommission_success_witness :
  issued (DeleteCluster.main_requests provider_ok sample_iam sample_redshift
            sample_config) W0
  = decommission_calls sample_iam sample_redshift (PStr "dwhCluster") (PStr "dwhRole").
Proof.
  apply (proj1 (proj2 (decommission_success_line_iff_all_deleted provider_ok
                         sample_iam sample_redshift sample_config W0)));
    vm_compute; reflexivity.
Defined.

(** ** The two scripts together *)

(** X17. On one configuration, the Decommissioner addresses what the
    Provisioner created: its cluster deletion names the cluster identifier
    of the cluster creation, its detachment has the role name and the policy
    of the attachment, and its role deletion names the role of the role
    creation. *)
Theorem decommissioner_addresses_what_provisioner_created
    (provider provider' : Provider) (iam redshift : Client) (config : Config)
    (w w' : World) (c d : Call) :
  c ∈ issued (main provider config) w ->
  d ∈ issued (DeleteCluster.main_requests provider' iam redshift config) w' ->
  (operation c = "create_cluster" -> operation d = "delete_cluster" ->
   assoc "ClusterIdentifier" (kwargs d) = assoc "ClusterIdentifier" (kwargs c))
  /\ (operation c = "attach_role_policy" -> operation d = "detach_role_policy" ->
      kwargs d = kwargs c)
  /\ (operation c = "create_role" -> operation d = "delete_role" ->
      assoc "RoleName" (kwargs d) = assoc "RoleName" (kwargs c)).
Proof.
  intros Hc Hd.
  destruct (provisioner_call_inventory _ _ _ _ _ (main_issued provider config w) Hc)
    as (key & secret & [(role & Hrole & Hin) | [(cid & Hcid & ->)
         | (ct & nt & n & db & cid & user & pw & arn & Hcid & ->)]]);
  destruct (decommission_call_inventory _ _ _ _ _
              (main_requests_issued provider' iam redshift config w') Hd)
    as [(cid' & Hcid' & ->) | (role' & Hrole' & [-> | ->])].
  all: try (unfold role_calls in Hin; rewrite !elem_of_cons, elem_of_nil in Hin;
            destruct Hin as [-> | [-> | [-> | []]]]).
  all: repeat split; intros Hop Hop'; try discriminate Hop; try discriminate Hop'.
  all: cbn; congruence.
Qed.

Lemma decommissioner_addresses_witness :
  kwargs (DeleteCluster.detach_role_policy_call sample_iam (PStr "dwhRole"))
  = kwargs (attach_role_policy_call sample_iam (PStr "dwhRole")).
Proof.
  apply (proj1 (proj2 (decommissioner_addresses_what_provisioner_created
                         provider_ok provider_ok sample_iam sample_redshift
                         sample_config W0 W0
                         (attach_role_policy_call sample_iam (PStr "dwhRole"))
                         (DeleteCluster.detach_role_policy_call sample_iam
                            (PStr "dwhRole"))
                         ltac:(apply list_elem_of_lookup; exists 1%nat;
                               vm_compute; reflexivity)
                         ltac:(apply list_elem_of_lookup; exists 1%nat;
                               vm_compute; reflexivity))));
    reflexivity.
Defined.
